(** * ACE-Step handler: initialization-adjacent utilities

    A shallow embedding of [acestep/core/generation/handler/init_service.py]
    (class [InitServiceMixin]) and the properties of its device resolution,
    capability probes, memory/synchronisation dispatch and checkpoint
    listing. *)

From Stdlib Require Import ZArith List Ascii String DecimalString OrderedTypeEx.
From stdpp Require Import gmap strings sorting list.

Local Open Scope Z_scope.

(** ** Python values, exceptions and results *)

(** The exception classes that the modelled code can meet. *)
Inductive exn : Type :=
  | AttributeError
  | ImportError
  | ModuleNotFoundError
  | RuntimeError
  | OSError
  | FileNotFoundError
  | NotADirectoryError.

(** [isinstance(e, ImportError)]: [ModuleNotFoundError] is the one subclass
    of [ImportError] among the classes above. *)
Definition is_ImportError (e : exn) : bool :=
  match e with
  | ImportError | ModuleNotFoundError => true
  | _ => false
  end.

(** The outcome of a call: a returned value or a raised exception. *)
Inductive result (A : Type) : Type :=
  | Ok (a : A)
  | Raise (e : exn).
Arguments Ok {A} a.
Arguments Raise {A} e.

(** The values an attribute of the configuration object may hold. *)
Inductive PyVal : Type :=
  | PyNone
  | PyBool (b : bool)
  | PyInt (z : Z)
  | PyStr (s : string).

(** ** The handler's device *)

(** [self.device] (and the [device] argument of the flash-attention probe):
    absent ([None]), a string such as ["cuda"] or ["cuda:0"], or a
    [torch.device] handle with its [type] field and optional index. *)
Inductive Device : Type :=
  | DevNone
  | DevStr (s : string)
  | DevHandle (type : string) (index : option nat).

(** Python truthiness: [None] and the empty string are falsy, a
    [torch.device] object is truthy. *)
Definition truthy (d : Device) : bool :=
  match d with
  | DevNone => false
  | DevStr EmptyString => false
  | DevStr _ => true
  | DevHandle _ _ => true
  end.

(** [a or b]. *)
Definition py_or (a b : Device) : Device := if truthy a then a else b.

(** [str(d)]: a handle prints as its type, followed by [:index] when it has
    one. *)
Definition py_str (d : Device) : string :=
  match d with
  | DevNone => "None"
  | DevStr s => s
  | DevHandle t None => t
  | DevHandle t (Some i) => t +:+ ":" +:+ NilEmpty.string_of_uint (Nat.to_uint i)
  end.

(** [s.split(":", 1)[0]]: the part of [s] before its first colon, all of
    [s] when it has none. *)
Fixpoint before_colon (s : string) : string :=
  match s with
  | EmptyString => EmptyString
  | String c rest =>
      if Ascii.eqb c ":" then EmptyString else String c (before_colon rest)
  end.

(** ** The accelerator runtime *)

Inductive Backend : Type := Cuda | Xpu | Mps.

(** The entry points of a backend that the mixin touches. [HasAttr] is the
    [hasattr(torch, "xpu")] / [hasattr(torch.backends, "mps")] probe. *)
Inductive Api : Type :=
  | HasAttr
  | IsAvailable
  | EmptyCache
  | Synchronize
  | MemoryAllocated
  | MaxMemoryAllocated.

(** What an operation does to the outside world, in order. *)
Inductive Event : Type :=
  | Call (b : Backend) (a : Api)
  | ImportFlashAttn.

(** The state of [torch] and of the Python environment at call time. The
    driver entry points are taken to return normally. *)
Record Torch : Type := {
  cuda_is_available : bool;
  has_xpu : bool;
  xpu_is_available : bool;
  has_backends_mps : bool;
  mps_is_available : bool;
  cuda_memory_allocated : Z;
  cuda_max_memory_allocated : Z;
  (** [import flash_attn]: [None] when the import succeeds, the exception it
      raises otherwise. *)
  import_flash_attn : option exn
}.

(** ** Effects: a trace of events, then a value or an exception *)

Definition M (A : Type) : Type := Torch -> list Event * result A.

Definition ret {A} (a : A) : M A := fun _ => ([], Ok a).

Definition raise {A} (e : exn) : M A := fun _ => ([], Raise e).

Definition bind {A B} (m : M A) (k : A -> M B) : M B :=
  fun t =>
    match m t with
    | (tr, Ok a) => let '(tr', r) := k a t in (tr ++ tr', r)
    | (tr, Raise e) => (tr, Raise e)
    end.

Notation "x <- m ;; k" := (bind m (fun x => k))
  (at level 100, m at next level, right associativity).
Notation "m ;;; k" := (bind m (fun _ => k))
  (at level 100, right associativity).

(** Reading a field of the runtime through one of its entry points. *)
Definition query {A} (b : Backend) (a : Api) (f : Torch -> A) : M A :=
  fun t => ([Call b a], Ok (f t)).

(** A command of the runtime. *)
Definition command (b : Backend) (a : Api) : M unit :=
  fun _ => ([Call b a], Ok tt).

(** [a and b] with short-circuit evaluation of [b]. *)
Definition py_and (a : bool) (b : M bool) : M bool :=
  if a then b else ret false.

(** [a and b] where the left operand is itself a call. *)
Definition py_and_m (a b : M bool) : M bool :=
  x <- a ;; py_and x b.

Definition torch_cuda_is_available : M bool :=
  query Cuda IsAvailable cuda_is_available.
Definition hasattr_torch_xpu : M bool :=
  query Xpu HasAttr has_xpu.
Definition torch_xpu_is_available : M bool :=
  query Xpu IsAvailable xpu_is_available.
Definition hasattr_torch_backends_mps : M bool :=
  query Mps HasAttr has_backends_mps.
Definition torch_backends_mps_is_available : M bool :=
  query Mps IsAvailable mps_is_available.

(** [try: import flash_attn] without its handler. *)
Definition import_flash_attn_stmt : M unit :=
  fun t =>
    ([ImportFlashAttn],
     match import_flash_attn t with
     | None => Ok tt
     | Some e => Raise e
     end).

(** [try: body except ImportError: handler]. *)
Definition try_except_ImportError {A} (body handler : M A) : M A :=
  fun t =>
    match body t with
    | (tr, Ok a) => (tr, Ok a)
    | (tr, Raise e) =>
        if is_ImportError e
        then let '(tr', r) := handler t in (tr ++ tr', r)
        else (tr, Raise e)
    end.

(** ** The filesystem *)

(** What a path names: nothing, a regular file, or a directory with the
    names [os.listdir] reports for it. *)
Inductive FsNode : Type :=
  | Absent
  | RegularFile
  | Directory (entries : list string).

Definition FileSystem : Type := string -> FsNode.

Definition os_path_exists (fs : FileSystem) (p : string) : bool :=
  match fs p with
  | Absent => false
  | _ => true
  end.

Definition os_path_isdir (fs : FileSystem) (p : string) : bool :=
  match fs p with
  | Directory _ => true
  | _ => false
  end.

Definition os_listdir (fs : FileSystem) (p : string) : result (list string) :=
  match fs p with
  | Directory entries => Ok entries
  | RegularFile => Raise NotADirectoryError
  | Absent => Raise FileNotFoundError
  end.

(** [s.endswith("/")]. *)
Fixpoint ends_with_sep (s : string) : bool :=
  match s with
  | EmptyString => false
  | String c EmptyString => Ascii.eqb c "/"
  | String _ rest => ends_with_sep rest
  end.

(** [item.startswith(p)]. *)
Definition startswith (item p : string) : bool := String.prefix p item.

(** [os.path.join(a, b)] on a POSIX host. *)
Definition os_path_join (a b : string) : string :=
  if startswith b "/" then b
  else if ((a =? "")%string || ends_with_sep a)%bool then a +:+ b
  else a +:+ "/" +:+ b.

(** [list.sort()] on strings orders them by code point, which on the byte
    strings used here is [String.leb]. *)
Definition str_le (s1 s2 : string) : Prop := String.leb s1 s2 = true.

#[export] Instance str_le_dec : RelDecision str_le.
Proof. intros s1 s2. unfold str_le. apply _. Defined.

Definition py_sort (l : list string) : list string := merge_sort str_le l.

(** ** The handler and the mixin's methods *)

(** The attributes of [self] that the mixin reads. [project_root] is the
    value returned by [self._get_project_root()], which is defined by the
    host class. *)
Record Handler : Type := {
  device : Device;
  config : option (gmap string PyVal);
  project_root : string
}.

(** [getattr(obj, name, default)] on an object given by its attributes. *)
Definition getattr (obj : gmap string PyVal) (name : string) (dflt : PyVal)
  : PyVal :=
  default dflt (obj !! name).

Definition _device_type (self : Handler) : M string :=
  match device self with
  | DevStr s => ret s
  | DevHandle ty _ => ret ty
  | DevNone => raise AttributeError
  end.

Definition get_available_checkpoints (self : Handler) (fs : FileSystem)
  : list string :=
  let checkpoint_dir := os_path_join (project_root self) "checkpoints" in
  if os_path_exists fs checkpoint_dir then [checkpoint_dir] else [].

(** The body of the [for item in os.listdir(checkpoint_dir)] loop, with
    [models] as the list built so far. *)
Fixpoint scan_models (fs : FileSystem) (checkpoint_dir : string)
    (items models : list string) : list string :=
  match items with
  | [] => models
  | item :: rest =>
      let item_path := os_path_join checkpoint_dir item in
      if (os_path_isdir fs item_path && startswith item "acestep-v15-")%bool
      then scan_models fs checkpoint_dir rest (models ++ [item])
      else scan_models fs checkpoint_dir rest models
  end.

Definition get_available_acestep_v15_models (self : Handler) (fs : FileSystem)
  : result (list string) :=
  let checkpoint_dir := os_path_join (project_root self) "checkpoints" in
  let scanned :=
    if os_path_exists fs checkpoint_dir then
      match os_listdir fs checkpoint_dir with
      | Ok items => Ok (scan_models fs checkpoint_dir items [])
      | Raise e => Raise e
      end
    else Ok []
  in
  match scanned with
  | Ok models => Ok (py_sort models)
  | Raise e => Raise e
  end.

(** [str(device or self.device or "auto").split(":", 1)[0]]. *)
Definition target_device (self : Handler) (dev : Device) : string :=
  before_colon (py_str (py_or (py_or dev (device self)) (DevStr "auto"))).

Definition is_flash_attention_available (self : Handler) (dev : Device)
  : M bool :=
  let target_device := target_device self dev in
  let probe :=
    try_except_ImportError (import_flash_attn_stmt ;;; ret true) (ret false) in
  if (target_device =? "auto")%string then
    a <- torch_cuda_is_available ;;
    if negb a then ret false else probe
  else
    c <- (if negb (target_device =? "cuda")%string then ret true
          else a <- torch_cuda_is_available ;; ret (negb a)) ;;
    if c then ret false else probe.

Definition is_turbo_model (self : Handler) : PyVal :=
  match config self with
  | None => PyBool false
  | Some cfg => getattr cfg "is_turbo" (PyBool false)
  end.

Definition xpu_ready : M bool :=
  py_and_m hasattr_torch_xpu torch_xpu_is_available.

Definition mps_ready : M bool :=
  py_and_m hasattr_torch_backends_mps torch_backends_mps_is_available.

Definition _empty_cache (self : Handler) : M unit :=
  device_type <- _device_type self ;;
  c <- py_and (device_type =? "cuda")%string torch_cuda_is_available ;;
  if c then command Cuda EmptyCache else
  c <- py_and (device_type =? "xpu")%string xpu_ready ;;
  if c then command Xpu EmptyCache else
  c <- py_and (device_type =? "mps")%string mps_ready ;;
  if c then command Mps EmptyCache else ret tt.

Definition _synchronize (self : Handler) : M unit :=
  device_type <- _device_type self ;;
  c <- py_and (device_type =? "cuda")%string torch_cuda_is_available ;;
  if c then command Cuda Synchronize else
  c <- py_and (device_type =? "xpu")%string xpu_ready ;;
  if c then command Xpu Synchronize else
  c <- py_and (device_type =? "mps")%string mps_ready ;;
  if c then command Mps Synchronize else ret tt.

Definition _memory_allocated (self : Handler) : M Z :=
  device_type <- _device_type self ;;
  c <- py_and (device_type =? "cuda")%string torch_cuda_is_available ;;
  if c then query Cuda MemoryAllocated cuda_memory_allocated else ret 0.

Definition _max_memory_allocated (self : Handler) : M Z :=
  device_type <- _device_type self ;;
  c <- py_and (device_type =? "cuda")%string torch_cuda_is_available ;;
  if c then query Cuda MaxMemoryAllocated cuda_max_memory_allocated
  else ret 0.

(** ** Vocabulary of the properties *)

(** The backend tags that name an accelerator. *)
Definition backend_tag (b : Backend) : string :=
  match b with
  | Cuda => "cuda"
  | Xpu => "xpu"
  | Mps => "mps"
  end.


(** The entry points that act on a backend, as opposed to the probes that
    only ask whether it is there. *)
Definition backend_call (a : Api) : bool :=
  match a with
  | EmptyCache | Synchronize | MemoryAllocated | MaxMemoryAllocated => true
  | HasAttr | IsAvailable => false
  end.

(** A backend is ready when its module is there and reports itself
    available. *)
Definition available (t : Torch) (b : Backend) : bool :=
  match b with
  | Cuda => cuda_is_available t
  | Xpu => has_xpu t && xpu_is_available t
  | Mps => has_backends_mps t && mps_is_available t
  end.

(** Every backend call of the trace targets the backend named by [dt],
    that backend is ready, and its availability was asked earlier in the
    trace. *)
Definition guarded (dt : string) (t : Torch) (tr : list Event) : Prop :=
  forall pre b a post,
    tr = pre ++ Call b a :: post ->
    backend_call a = true ->
    dt = backend_tag b /\ available t b = true /\ In (Call b IsAvailable) pre.

(** The trace holds no backend call. *)
Definition silent (tr : list Event) : Prop :=
  forall b a, In (Call b a) tr -> backend_call a = false.

(** The string has no colon. *)
Fixpoint colon_free (s : string) : bool :=
  match s with
  | EmptyString => true
  | String c rest => negb (Ascii.eqb c ":") && colon_free rest
  end.

(** ** Sample states *)

(** A checkpoint directory with two models, a directory of another family
    and a file whose name has the prefix. *)
Definition sample_fs : FileSystem :=
  fun p =>
    if (p =? "/srv/ace/checkpoints")%string then
      Directory ["vae"; "acestep-v15-turbo"; "acestep-v15-base";
                 "acestep-v15-notes.txt"]
    else if (p =? "/srv/ace/checkpoints/vae")%string then Directory []
    else if (p =? "/srv/ace/checkpoints/acestep-v15-turbo")%string
    then Directory []
    else if (p =? "/srv/ace/checkpoints/acestep-v15-base")%string
    then Directory []
    else if (p =? "/srv/ace/checkpoints/acestep-v15-notes.txt")%string
    then RegularFile
    else Absent.

(** The same tree with the checkpoint directory listed in the opposite
    order. *)
Definition sample_fs_reversed : FileSystem :=
  fun p =>
    if (p =? "/srv/ace/checkpoints")%string then
      Directory ["acestep-v15-notes.txt"; "acestep-v15-base";
                 "acestep-v15-turbo"; "vae"]
    else sample_fs p.

(** The same tree with a regular file where the checkpoint directory
    was. *)
Definition sample_fs_file : FileSystem :=
  fun p =>
    if (p =? "/srv/ace/checkpoints")%string then RegularFile
    else sample_fs p.

(** The same tree with a checkpoint directory that holds no model of the
    family. *)
Definition sample_fs_no_model : FileSystem :=
  fun p =>
    if (p =? "/srv/ace/checkpoints")%string
    then Directory ["vae"; "acestep-v15-notes.txt"]
    else sample_fs p.

Definition sample_handler (d : Device) : Handler :=
  {| device := d; config := None; project_root := "/srv/ace" |}.

(** A runtime with CUDA and XPU ready, no MPS, and [flash_attn]
    installed. *)
Definition sample_torch : Torch :=
  {| cuda_is_available := true;
     has_xpu := true;
     xpu_is_available := true;
     has_backends_mps := false;
     mps_is_available := false;
     cuda_memory_allocated := 1024;
     cuda_max_memory_allocated := 4096;
     import_flash_attn := None |}.

(** The same runtime with a [flash_attn] whose import fails with [e]. *)
Definition broken_flash_attn (e : exn) : Torch :=
  {| cuda_is_available := true;
     has_xpu := true;
     xpu_is_available := true;
     has_backends_mps := false;
     mps_is_available := false;
     cuda_memory_allocated := 1024;
     cuda_max_memory_allocated := 4096;
     import_flash_attn := Some e |}.

(** What the probe answers once the device test has passed. *)
Definition probe_outcome (t : Torch) : result bool :=
  match import_flash_attn t with
  | None => Ok true
  | Some e => if is_ImportError e then Ok false else Raise e
  end.

(** ** Statements shared by the theorems *)

(** What the dispatcher promises for a run resolved to [dt]: the run
    returns; each backend call it makes is guarded; and when [dt] names no
    ready accelerator it makes no backend call and returns [dflt]. *)
Definition safe_dispatch {A} (dflt : A) (dt : string) (t : Torch)
    (run : list Event * result A) : Prop :=
  exists v,
    snd run = Ok v /\
    guarded dt t (fst run) /\
    ((forall b, dt = backend_tag b -> available t b = false) ->
     silent (fst run) /\ v = dflt).

(** ** Vocabulary of the further properties *)

(** The probes the dispatch makes before it calls backend [b]. *)
Definition probes (b : Backend) : list Event :=
  match b with
  | Cuda => [Call Cuda IsAvailable]
  | Xpu => [Call Xpu HasAttr; Call Xpu IsAvailable]
  | Mps => [Call Mps HasAttr; Call Mps IsAvailable]
  end.

(** The event of [_synchronize] that stands where [_empty_cache] has
    [e]. *)
Definition to_synchronize (e : Event) : Event :=
  match e with
  | Call b EmptyCache => Call b Synchronize
  | _ => e
  end.

(** Every event of the trace is an entry point of the backend that [dt]
    names. *)
Definition only_backend (dt : string) (tr : list Event) : Prop :=
  forall e, In e tr -> exists b a, e = Call b a /\ dt = backend_tag b.

(** [hasattr] on the module that holds backend [b]; [torch.cuda] is used
    without such a test. *)
Definition has_module (t : Torch) (b : Backend) : bool :=
  match b with
  | Cuda => true
  | Xpu => has_xpu t
  | Mps => has_backends_mps t
  end.

(** Every availability question to XPU or MPS comes after a [hasattr]
    test on that backend, and that test found the module. *)
Definition hasattr_first (t : Torch) (tr : list Event) : Prop :=
  forall pre b post,
    tr = pre ++ Call b IsAvailable :: post ->
    b = Cuda \/ (In (Call b HasAttr) pre /\ has_module t b = true).

(** The test of the scan on one entry of the checkpoint directory. *)
Definition is_model_entry (fs : FileSystem) (checkpoint_dir item : string)
  : bool :=
  (os_path_isdir fs (os_path_join checkpoint_dir item)
   && startswith item "acestep-v15-")%bool.

(** The tags that let the flash-attention probe go on to CUDA. *)
Definition cuda_or_auto (tag : string) : bool :=
  ((tag =? "cuda")%string || (tag =? "auto")%string)%bool.

(** ** Facts about the helpers *)

Section StringOrder.

Lemma str_le_iff (s1 s2 : string) :
  str_le s1 s2 <-> s1 = s2 \/ String_as_OT.lt s1 s2.
Proof.
  unfold str_le, String.leb.
  destruct (String.compare s1 s2) eqn:Hc; split; intros H; try done.
  - left. by apply String_as_OT.cmp_eq.
  - right. by apply String_as_OT.cmp_lt.
  - destruct H as [-> | H].
    + assert (String.compare s2 s2 = Eq) as He
        by (by apply String_as_OT.cmp_eq).
      congruence.
    + apply String_as_OT.cmp_lt in H. unfold String_as_OT.cmp in H.
      congruence.
Qed.

#[export] Instance str_le_total : Total str_le.
Proof. intros s1 s2. apply String.leb_total. Qed.

#[export] Instance str_le_trans : Transitive str_le.
Proof.
  intros s1 s2 s3. rewrite !str_le_iff.
  intros [-> | H12] [-> | H23]; auto.
  right. eapply String_as_OT.lt_trans; eauto.
Qed.

#[export] Instance str_le_antisym : AntiSymm (=) str_le.
Proof. intros s1 s2. apply String.leb_antisym. Qed.

End StringOrder.

Section MonadLaws.

Context {A B : Type}.

Lemma bind_ret (a : A) (k : A -> M B) (t : Torch) :
  bind (ret a) k t = k a t.
Proof. unfold bind, ret. by destruct (k a t). Qed.

Lemma bind_raise (e : exn) (k : A -> M B) (t : Torch) :
  bind (raise e) k t = ([], Raise e).
Proof. done. Qed.

Lemma bind_query (b : Backend) (a : Api) (f : Torch -> A) (k : A -> M B)
    (t : Torch) :
  bind (query b a f) k t = (Call b a :: fst (k (f t) t), snd (k (f t) t)).
Proof. unfold bind, query. by destruct (k (f t) t). Qed.

End MonadLaws.

Lemma bind_bind {A B C} (m : M A) (k1 : A -> M B) (k2 : B -> M C) (t : Torch) :
  bind (bind m k1) k2 t = bind m (fun x => bind (k1 x) k2) t.
Proof.
  unfold bind. destruct (m t) as [tr [a | e]]; [| done].
  destruct (k1 a t) as [tr1 [b | e]]; [| done].
  destruct (k2 b t) as [tr2 r]. by rewrite app_assoc.
Qed.

Lemma scan_models_filter fs dir items models :
  scan_models fs dir items models =
  models ++
  List.filter
    (fun item =>
       (os_path_isdir fs (os_path_join dir item)
        && startswith item "acestep-v15-")%bool)
    items.
Proof.
  revert models. induction items as [| item rest IH]; intros models; simpl.
  - by rewrite app_nil_r.
  - destruct (_ && _)%bool; rewrite IH; [by rewrite <- app_assoc | done].
Qed.

Lemma before_colon_colon_free (s : string) :
  colon_free s = true -> before_colon s = s.
Proof.
  induction s as [| c rest IH]; simpl; [done |].
  destruct (Ascii.eqb c ":"); simpl; [done |].
  intros H. by rewrite IH.
Qed.


(** ** The turbo-model flag *)

Section Turbo.

Variables (dev : Device) (root : string).

Let handler (cfg : option (gmap string PyVal)) : Handler :=
  {| device := dev; config := cfg; project_root := root |}.

(** C7: [is_turbo_model] is [False] when no configuration is loaded,
    [False] when the configuration has no [is_turbo] attribute, and the
    value of that attribute otherwise. *)
Theorem is_turbo_model_spec :
  is_turbo_model (handler None) = PyBool false /\
  (forall cfg : gmap string PyVal,
      cfg !! "is_turbo" = None ->
      is_turbo_model (handler (Some cfg)) = PyBool false) /\
  (forall (cfg : gmap string PyVal) (v : PyVal),
      cfg !! "is_turbo" = Some v ->
      is_turbo_model (handler (Some cfg)) = v).
Proof.
  unfold is_turbo_model, getattr; simpl.
  split; [done |].
  split; [intros cfg Hnone | intros cfg v Hsome].
  - by rewrite Hnone.
  - by rewrite Hsome.
Qed.

(** C10: a loaded configuration's [is_turbo] attribute is returned as it
    is stored, whatever kind of value it is: nothing turns a string or an
    integer into a boolean. *)
Theorem is_turbo_model_verbatim (cfg : gmap string PyVal) (v : PyVal) :
  is_turbo_model (handler (Some (<["is_turbo" := v]> cfg))) = v /\
  is_turbo_model (handler (Some (<["is_turbo" := PyStr "yes"]> cfg)))
    = PyStr "yes" /\
  is_turbo_model (handler (Some (<["is_turbo" := PyInt 1]> cfg)))
    = PyInt 1.
Proof.
  unfold is_turbo_model, getattr; simpl.
  by rewrite !lookup_insert_eq.
Qed.

End Turbo.

Lemma is_turbo_model_spec_witness :
  is_turbo_model
    {| device := DevStr "cuda";
       config := Some {[ "is_turbo" := PyBool true ]};
       project_root := "/srv/ace" |} = PyBool true /\
  is_turbo_model
    {| device := DevStr "cuda";
       config := Some {[ "dtype" := PyStr "bf16" ]};
       project_root := "/srv/ace" |} = PyBool false.
Proof.
  split.
  - apply (proj2 (proj2 (is_turbo_model_spec (DevStr "cuda") "/srv/ace"))).
    vm_compute. reflexivity.
  - apply (proj1 (proj2 (is_turbo_model_spec (DevStr "cuda") "/srv/ace"))).
    vm_compute. reflexivity.
Defined.

(** ** The checkpoint locator *)

Section Checkpoints.

Variables (self : Handler) (fs : FileSystem).

Let checkpoint_dir : string := os_path_join (project_root self) "checkpoints".



End Checkpoints.


Section Models.

Variables (self : Handler) (fs : FileSystem).



Lemma models_of_absent :
  fs (os_path_join (project_root self) "checkpoints") = Absent ->
  get_available_acestep_v15_models self fs = Ok [].
Proof.
  intros Habs. unfold get_available_acestep_v15_models.
  unfold os_path_exists. by rewrite Habs.
Qed.



End Models.

Example sample_models :
  get_available_acestep_v15_models (sample_handler (DevStr "cuda")) sample_fs
  = Ok ["acestep-v15-base"; "acestep-v15-turbo"].
Proof. vm_compute. reflexivity. Qed.



(** ** Flash-attention availability *)

Section FlashAttention.

Variables (self : Handler) (dev : Device) (t : Torch).

Lemma flash_probe_run :
  snd (try_except_ImportError
         (import_flash_attn_stmt ;;; ret true) (ret false) t)
  = probe_outcome t.
Proof.
  unfold try_except_ImportError, bind, import_flash_attn_stmt, ret,
    probe_outcome.
  destruct (import_flash_attn t) as [e |]; simpl; [| done].
  by destruct (is_ImportError e).
Qed.

(** C2: [is_flash_attention_available] returns [False] whenever the
    resolved tag is not ["cuda"] and is not ["auto"] with CUDA present,
    whether or not [flash_attn] can be imported. *)
Theorem flash_attention_false_off_cuda :
  target_device self dev <> "cuda" ->
  ~ (target_device self dev = "auto" /\ cuda_is_available t = true) ->
  snd (is_flash_attention_available self dev t) = Ok false.
Proof.
  intros Hcuda Hauto. unfold is_flash_attention_available.
  destruct (String.eqb_spec (target_device self dev) "auto") as [Ha | Ha].
  - unfold torch_cuda_is_available. rewrite bind_query. simpl.
    destruct (cuda_is_available t) eqn:Hav; simpl; [| done].
    exfalso. apply Hauto. by split.
  - destruct (String.eqb_spec (target_device self dev) "cuda"); done.
Qed.

(** C6, as the code has it: once the device test has passed (tag
    ["cuda"] or ["auto"], CUDA available) the answer is [True] when the
    import succeeds, [False] when it raises [ImportError] or a subclass
    of it, and any other exception of the import reaches the caller. *)
Theorem flash_attention_probe_outcome :
  target_device self dev = "cuda" \/ target_device self dev = "auto" ->
  cuda_is_available t = true ->
  snd (is_flash_attention_available self dev t) = probe_outcome t.
Proof.
  intros Htag Hav. unfold is_flash_attention_available.
  unfold torch_cuda_is_available.
  destruct Htag as [-> | ->].
  - change ("cuda" =? "auto")%string with false.
    change ("cuda" =? "cuda")%string with true.
    cbv beta iota zeta. change (negb true) with false. cbv iota.
    rewrite bind_bind, bind_query, Hav. cbv beta iota.
    rewrite bind_ret. apply flash_probe_run.
  - change ("auto" =? "auto")%string with true. cbv beta iota zeta.
    rewrite bind_query, Hav. apply flash_probe_run.
Qed.

End FlashAttention.

Lemma flash_attention_false_off_cuda_witness :
  snd (is_flash_attention_available
         (sample_handler (DevStr "cuda")) (DevStr "xpu") sample_torch)
  = Ok false.
Proof.
  apply (flash_attention_false_off_cuda
           (sample_handler (DevStr "cuda")) (DevStr "xpu") sample_torch).
  - vm_compute. discriminate.
  - vm_compute. intros [H _]. discriminate H.
Defined.

Lemma flash_attention_probe_outcome_witness :
  snd (is_flash_attention_available
         (sample_handler (DevStr "cuda:0")) DevNone
         (broken_flash_attn ModuleNotFoundError))
  = Ok false.
Proof.
  apply (flash_attention_probe_outcome
           (sample_handler (DevStr "cuda:0")) DevNone
           (broken_flash_attn ModuleNotFoundError)).
  - left. vm_compute. reflexivity.
  - reflexivity.
Defined.

(** C6, as stated, fails: with CUDA ready and a [flash_attn] whose import
    raises [RuntimeError], the exception leaves
    [is_flash_attention_available]. *)
Lemma flash_attention_probe_error_escapes :
  is_flash_attention_available
    (sample_handler (DevStr "cuda")) DevNone (broken_flash_attn RuntimeError)
  = ([Call Cuda IsAvailable; ImportFlashAttn], Raise RuntimeError).
Proof. vm_compute. reflexivity. Qed.

(** C5, as stated, fails: on a handler whose device is ["cpu"], with CUDA
    ready and [flash_attn] installed, an empty override answers [False]
    where the override ["auto"] answers [True]; with the handler's device
    ["cuda"] the empty override answers [True]. *)
Lemma empty_override_follows_handler_device :
  target_device (sample_handler (DevStr "cpu")) (DevStr "") = "cpu" /\
  snd (is_flash_attention_available
         (sample_handler (DevStr "cpu")) (DevStr "") sample_torch)
    = Ok false /\
  snd (is_flash_attention_available
         (sample_handler (DevStr "cpu")) (DevStr "auto") sample_torch)
    = Ok true /\
  snd (is_flash_attention_available
         (sample_handler (DevStr "cuda")) (DevStr "") sample_torch)
    = Ok true.
Proof. vm_compute. repeat split; reflexivity. Qed.

(** C5, as the code has it: an empty override counts as no override, so
    the probe resolves and behaves as it does for the handler's own
    device. It resolves to ["auto"] exactly when the handler's device is
    absent or empty or itself resolves to ["auto"], and it then behaves as
    with the override ["auto"]. *)
Theorem empty_override_is_no_override (self : Handler) (t : Torch) :
  target_device self (DevStr "") = target_device self DevNone /\
  is_flash_attention_available self (DevStr "") t
    = is_flash_attention_available self DevNone t /\
  (target_device self (DevStr "") = "auto" <->
   truthy (device self) = false \/
   before_colon (py_str (device self)) = "auto") /\
  (target_device self (DevStr "") = "auto" ->
   is_flash_attention_available self (DevStr "") t
     = is_flash_attention_available self (DevStr "auto") t).
Proof.
  split; [done |]. split; [done |].
  split.
  - unfold target_device, py_or.
    change (truthy (DevStr "")) with false. cbv iota.
    destruct (truthy (device self)) eqn:Htruthy.
    + split; [by right | by intros [Hfalse | Htag]].
    + split; [by left | done].
  - intros Hauto. unfold is_flash_attention_available.
    rewrite Hauto.
    by assert (target_device self (DevStr "auto") = "auto") as -> by done.
Qed.

Lemma empty_override_is_no_override_witness :
  target_device (sample_handler DevNone) (DevStr "") = "auto" /\
  is_flash_attention_available (sample_handler DevNone) (DevStr "") sample_torch
    = is_flash_attention_available
        (sample_handler DevNone) (DevStr "auto") sample_torch.
Proof.
  split.
  - apply (proj1 (proj2 (proj2 (empty_override_is_no_override
                                  (sample_handler DevNone) sample_torch)))).
    left. reflexivity.
  - apply (proj2 (proj2 (proj2 (empty_override_is_no_override
                                  (sample_handler DevNone) sample_torch)))).
    reflexivity.
Defined.

(** ** Resolution of the backend identity *)

(** C4: a handler device given as the string ["cuda:0"] is resolved to
    ["cuda"] by the flash-attention probe only. [_device_type] hands the
    string back whole, so on every runtime, CUDA ready or not, the cache
    clear and the synchronisation issue no call and both allocation
    queries answer 0; the string ["cuda"] and a CUDA device handle with
    index 0 do reach the CUDA calls. *)
Theorem cuda_index_string_skips_cuda (t : Torch) :
  target_device (sample_handler (DevStr "cuda:0")) DevNone = "cuda" /\
  _device_type (sample_handler (DevStr "cuda:0")) t = ([], Ok "cuda:0") /\
  _empty_cache (sample_handler (DevStr "cuda:0")) t = ([], Ok tt) /\
  _synchronize (sample_handler (DevStr "cuda:0")) t = ([], Ok tt) /\
  _memory_allocated (sample_handler (DevStr "cuda:0")) t = ([], Ok 0) /\
  _max_memory_allocated (sample_handler (DevStr "cuda:0")) t = ([], Ok 0) /\
  _empty_cache (sample_handler (DevStr "cuda")) sample_torch
    = ([Call Cuda IsAvailable; Call Cuda EmptyCache], Ok tt) /\
  _memory_allocated (sample_handler (DevStr "cuda")) sample_torch
    = ([Call Cuda IsAvailable; Call Cuda MemoryAllocated], Ok 1024) /\
  _memory_allocated (sample_handler (DevHandle "cuda" (Some 0%nat)))
    sample_torch
    = ([Call Cuda IsAvailable; Call Cuda MemoryAllocated], Ok 1024).
Proof. vm_compute. repeat split; reflexivity. Qed.


Section Resolution.

Variables (self : Handler) (t : Torch).

Lemma target_device_of_tag (s : string) :
  s <> "" -> colon_free s = true -> target_device self (DevStr s) = s.
Proof.
  intros Hne Hfree. unfold target_device, py_or.
  destruct s as [| c rest]; [done |]. simpl truthy. cbv iota.
  simpl py_str. by apply before_colon_colon_free.
Qed.



End Resolution.


(** ** The memory and synchronisation dispatcher *)

(** A tag names one of the three backends or none. *)
Lemma tag_cases (dt : string) :
  dt = "cuda" \/ dt = "xpu" \/ dt = "mps" \/ (forall b, dt <> backend_tag b).
Proof.
  destruct (String.eqb_spec dt "cuda"); [tauto |].
  destruct (String.eqb_spec dt "xpu"); [tauto |].
  destruct (String.eqb_spec dt "mps"); [tauto |].
  do 3 right. by intros [].
Qed.

(** The three tests of the dispatch, on a tag that names no backend. *)
Lemma tag_tests_other (dt : string) :
  (forall b, dt <> backend_tag b) ->
  (dt =? "cuda")%string = false /\
  (dt =? "xpu")%string = false /\
  (dt =? "mps")%string = false.
Proof.
  intros Hother.
  repeat split; apply String.eqb_neq.
  - apply (Hother Cuda).
  - apply (Hother Xpu).
  - apply (Hother Mps).
Qed.

(** [guarded] on a trace given event by event: each position the backend
    call can take is inspected. *)
Ltac solve_guarded :=
  let pre := fresh "pre" in
  let H := fresh "H" in
  let Hc := fresh "Hc" in
  intros pre ? ? ? H Hc;
  repeat (destruct pre as [| ? pre]; simplify_eq/=);
  repeat split; simpl; auto.

Ltac solve_silent :=
  let H := fresh "H" in
  intros ? ? H; simpl in H;
  repeat (destruct H as [H | H]; [by simplify_eq/= |]);
  destruct H.

(** The last clause of [safe_dispatch]: either the run is silent and
    returns the default, or the premise fails at the backend that was
    called. *)
Ltac solve_default :=
  let Hno := fresh "Hno" in
  intros Hno;
  first
    [ split; [solve [solve_silent] | reflexivity]
    | exfalso;
      first [ specialize (Hno Cuda eq_refl)
            | specialize (Hno Xpu eq_refl)
            | specialize (Hno Mps eq_refl) ];
      discriminate Hno ].

(** Runs a dispatch on every tag and every state of the runtime's
    flags. *)
Ltac run_dispatch t dt :=
  unfold safe_dispatch;
  destruct t as [cuda hx xpu hm mps mem maxmem imp];
  destruct (tag_cases dt) as [-> | [-> | [-> | Hother]]];
  [ | | |
    let E1 := fresh "E" in
    let E2 := fresh "E" in
    let E3 := fresh "E" in
    destruct (tag_tests_other dt Hother) as (E1 & E2 & E3);
    rewrite ?E1, ?E2, ?E3 ];
  destruct cuda, hx, xpu, hm, mps;
  eexists; cbn;
  (split; [reflexivity |]; split; [solve_guarded | solve_default]).

Section Dispatch.

Variables (self : Handler) (t : Torch) (dt : string).

Hypothesis resolved : snd (_device_type self t) = Ok dt.

Lemma device_type_run : _device_type self t = ([], Ok dt).
Proof using resolved.
  revert resolved. unfold _device_type, ret, raise.
  destruct (device self); simpl; congruence.
Qed.

Lemma device_type_bind {A} (k : string -> M A) :
  bind (_device_type self) k t = k dt t.
Proof using resolved.
  unfold bind. rewrite device_type_run. simpl. by destruct (k dt t).
Qed.

Lemma empty_cache_safe : safe_dispatch tt dt t (_empty_cache self t).
Proof using resolved.
  unfold _empty_cache. rewrite device_type_bind. clear resolved.
  run_dispatch t dt.
Qed.

Lemma synchronize_safe : safe_dispatch tt dt t (_synchronize self t).
Proof using resolved.
  unfold _synchronize. rewrite device_type_bind. clear resolved.
  run_dispatch t dt.
Qed.

Lemma memory_allocated_safe :
  safe_dispatch 0 dt t (_memory_allocated self t).
Proof using resolved.
  unfold _memory_allocated. rewrite device_type_bind. clear resolved.
  run_dispatch t dt.
Qed.

Lemma max_memory_allocated_safe :
  safe_dispatch 0 dt t (_max_memory_allocated self t).
Proof using resolved.
  unfold _max_memory_allocated. rewrite device_type_bind. clear resolved.
  run_dispatch t dt.
Qed.

End Dispatch.

Lemma device_type_resolves (self : Handler) (t : Torch) :
  device self <> DevNone -> exists dt, snd (_device_type self t) = Ok dt.
Proof.
  unfold _device_type. destruct (device self) as [| s | ty idx]; [done | |].
  - by exists s.
  - by exists ty.
Qed.

(** C1: no exception is to leave the four operations, on any device. On
    a handler without a device each of them raises [AttributeError], on
    every runtime and before it asks the runtime anything, while the
    flash-attention probe reads the same absent device as ["auto"] and
    returns. *)
Theorem dispatch_raises_without_device (t : Torch) :
  _empty_cache (sample_handler DevNone) t = ([], Raise AttributeError) /\
  _synchronize (sample_handler DevNone) t = ([], Raise AttributeError) /\
  _memory_allocated (sample_handler DevNone) t
    = ([], Raise AttributeError) /\
  _max_memory_allocated (sample_handler DevNone) t
    = ([], Raise AttributeError) /\
  target_device (sample_handler DevNone) DevNone = "auto" /\
  is_flash_attention_available (sample_handler DevNone) DevNone sample_torch
    = ([Call Cuda IsAvailable; ImportFlashAttn], Ok true).
Proof. repeat split; reflexivity. Qed.

(** X18: when the handler's device is a string or a
    device handle, on every state of the runtime each of [_empty_cache],
    [_synchronize], [_memory_allocated] and [_max_memory_allocated]
    returns without raising; every backend call it makes targets the
    backend that the resolved tag names, that backend reports itself
    available, and its availability was asked before the call; and when
    the resolved tag names no available accelerator the operation makes no
    backend call and returns nothing, respectively 0. *)
Theorem memory_sync_dispatch_safe (self : Handler) (t : Torch) :
  device self <> DevNone ->
  exists dt,
    snd (_device_type self t) = Ok dt /\
    safe_dispatch tt dt t (_empty_cache self t) /\
    safe_dispatch tt dt t (_synchronize self t) /\
    safe_dispatch 0 dt t (_memory_allocated self t) /\
    safe_dispatch 0 dt t (_max_memory_allocated self t).
Proof.
  intros Hdev.
  destruct (device_type_resolves self t Hdev) as [dt Hdt].
  exists dt. split; [exact Hdt |].
  split; [by apply empty_cache_safe |].
  split; [by apply synchronize_safe |].
  split; [by apply memory_allocated_safe | by apply max_memory_allocated_safe].
Qed.

Lemma memory_sync_dispatch_safe_witness :
  exists dt,
    snd (_device_type (sample_handler (DevStr "mps")) sample_torch) = Ok dt /\
    safe_dispatch tt dt sample_torch
      (_empty_cache (sample_handler (DevStr "mps")) sample_torch) /\
    safe_dispatch tt dt sample_torch
      (_synchronize (sample_handler (DevStr "mps")) sample_torch) /\
    safe_dispatch 0 dt sample_torch
      (_memory_allocated (sample_handler (DevStr "mps")) sample_torch) /\
    safe_dispatch 0 dt sample_torch
      (_max_memory_allocated (sample_handler (DevStr "mps")) sample_torch).
Proof.
  apply (memory_sync_dispatch_safe (sample_handler (DevStr "mps")) sample_torch).
  simpl. discriminate.
Defined.

(** ** Further properties of the dispatcher *)

(** Splits a dispatch into the tags and the states of the runtime's
    flags, and runs it in each. *)
Ltac dispatch_cases t dt :=
  destruct t as [cuda hx xpu hm mps mem maxmem imp];
  destruct (tag_cases dt) as [-> | [-> | [-> | Hother]]];
  [ | | |
    let E1 := fresh "E" in
    let E2 := fresh "E" in
    let E3 := fresh "E" in
    destruct (tag_tests_other dt Hother) as (E1 & E2 & E3);
    rewrite ?E1, ?E2, ?E3 ];
  destruct cuda, hx, xpu, hm, mps; cbn.

(** X1: when the resolved tag names a backend that is available,
    [_empty_cache] asks that backend's probes and then clears its cache,
    and [_synchronize] asks the same probes and then synchronises it;
    nothing else is called and both return. *)
Theorem dispatch_issues_matching_call (self : Handler) (t : Torch)
    (b : Backend) :
  snd (_device_type self t) = Ok (backend_tag b) ->
  available t b = true ->
  _empty_cache self t = (probes b ++ [Call b EmptyCache], Ok tt) /\
  _synchronize self t = (probes b ++ [Call b Synchronize], Ok tt).
Proof.
  intros Hres Hav. unfold _empty_cache, _synchronize.
  rewrite !(device_type_bind self t _ Hres).
  destruct t as [cuda hx xpu hm mps mem maxmem imp].
  destruct b; simpl in Hav;
    repeat match goal with
           | H : (_ && _)%bool = true |- _ =>
               apply andb_true_iff in H as [? ?]
           end;
    subst; split; reflexivity.
Qed.

Lemma dispatch_issues_matching_call_witness :
  _empty_cache (sample_handler (DevStr "xpu")) sample_torch
    = ([Call Xpu HasAttr; Call Xpu IsAvailable; Call Xpu EmptyCache], Ok tt) /\
  _synchronize (sample_handler (DevStr "xpu")) sample_torch
    = ([Call Xpu HasAttr; Call Xpu IsAvailable; Call Xpu Synchronize], Ok tt).
Proof.
  apply (dispatch_issues_matching_call
           (sample_handler (DevStr "xpu")) sample_torch Xpu);
    reflexivity.
Defined.

(** X2: on a string or handle device, [_memory_allocated] returns the
    CUDA allocation counter when the resolved tag is ["cuda"] and CUDA is
    available, and 0 otherwise; [_max_memory_allocated] does the same with
    the peak counter. For any other tag, XPU and MPS included, both return
    0 without asking the runtime anything. *)
Theorem memory_queries_value (self : Handler) (t : Torch) (dt : string) :
  snd (_device_type self t) = Ok dt ->
  snd (_memory_allocated self t)
    = Ok (if ((dt =? "cuda")%string && cuda_is_available t)%bool
          then cuda_memory_allocated t else 0) /\
  snd (_max_memory_allocated self t)
    = Ok (if ((dt =? "cuda")%string && cuda_is_available t)%bool
          then cuda_max_memory_allocated t else 0) /\
  (dt <> "cuda" ->
   _memory_allocated self t = ([], Ok 0) /\
   _max_memory_allocated self t = ([], Ok 0)).
Proof.
  intros Hres. unfold _memory_allocated, _max_memory_allocated.
  rewrite !(device_type_bind self t _ Hres).
  destruct (String.eqb_spec dt "cuda") as [-> | Hne].
  - destruct t as [cuda hx xpu hm mps mem maxmem imp].
    destruct cuda; cbn;
      (split; [reflexivity |]; split; [reflexivity |]);
      intros Hne; by destruct (Hne eq_refl).
  - cbn. split; [reflexivity |]. split; [reflexivity |].
    intros _. split; reflexivity.
Qed.

Lemma memory_queries_value_witness :
  snd (_memory_allocated (sample_handler (DevStr "xpu")) sample_torch) = Ok 0.
Proof.
  apply (memory_queries_value
           (sample_handler (DevStr "xpu")) sample_torch "xpu").
  reflexivity.
Defined.


Lemma device_type_cases (self : Handler) (t : Torch) :
  _device_type self t = ([], Raise AttributeError) \/
  exists dt, snd (_device_type self t) = Ok dt.
Proof.
  unfold _device_type. destruct (device self) as [| s | ty idx].
  - by left.
  - right. by exists s.
  - right. by exists ty.
Qed.

Lemma device_type_raise_bind {A} (self : Handler) (t : Torch)
    (k : string -> M A) :
  _device_type self t = ([], Raise AttributeError) ->
  bind (_device_type self) k t = ([], Raise AttributeError).
Proof. intros H. unfold bind. by rewrite H. Qed.

(** X3: [_synchronize] dispatches exactly as [_empty_cache] does: on every
    device and runtime it has the same outcome and the same trace, with
    the synchronisation where the other has the cache clear. *)
Theorem synchronize_mirrors_empty_cache (self : Handler) (t : Torch) :
  _synchronize self t
  = (map to_synchronize (fst (_empty_cache self t)),
     snd (_empty_cache self t)).
Proof.
  unfold _synchronize, _empty_cache.
  destruct (device_type_cases self t) as [Hraise | [dt Hres]].
  - by rewrite !(device_type_raise_bind self t _ Hraise).
  - rewrite !(device_type_bind self t dt Hres).
    dispatch_cases t dt; reflexivity.
Qed.

(** The trace of a dispatch holds events of the named backend only. *)
Ltac solve_only_backend :=
  let H := fresh "H" in
  intros ? H; simpl in H;
  repeat (destruct H as [H | H];
          [subst; eexists _, _; split; reflexivity |]);
  destruct H.

(** X4: on a string or handle device, each of the four operations touches
    the backend named by the resolved tag and no other: every event of its
    trace, probe or call, is an entry point of that backend. When the tag
    names none of CUDA, XPU and MPS it touches nothing at all. *)
Theorem dispatch_touches_named_backend_only (self : Handler) (t : Torch)
    (dt : string) :
  snd (_device_type self t) = Ok dt ->
  (only_backend dt (fst (_empty_cache self t)) /\
   only_backend dt (fst (_synchronize self t)) /\
   only_backend dt (fst (_memory_allocated self t)) /\
   only_backend dt (fst (_max_memory_allocated self t))) /\
  ((forall b, dt <> backend_tag b) ->
   fst (_empty_cache self t) = [] /\
   fst (_synchronize self t) = [] /\
   fst (_memory_allocated self t) = [] /\
   fst (_max_memory_allocated self t) = []).
Proof.
  intros Hres.
  unfold _empty_cache, _synchronize, _memory_allocated,
    _max_memory_allocated.
  rewrite !(device_type_bind self t dt Hres).
  split.
  - unfold only_backend.
    dispatch_cases t dt; repeat split; solve_only_backend.
  - intros Hother.
    destruct (tag_tests_other dt Hother) as (E1 & E2 & E3).
    rewrite ?E1, ?E2, ?E3. cbn. repeat split; reflexivity.
Qed.

Lemma dispatch_touches_named_backend_only_witness :
  fst (_empty_cache (sample_handler (DevStr "cpu")) sample_torch) = [].
Proof.
  apply (dispatch_touches_named_backend_only
           (sample_handler (DevStr "cpu")) sample_torch "cpu").
  - reflexivity.
  - intros []; discriminate.
Defined.

Ltac solve_hasattr_first :=
  let pre := fresh "pre" in
  let H := fresh "H" in
  intros pre ? ? H;
  repeat (destruct pre as [| ? pre]; simplify_eq/=);
  first [ by left | right; split; [simpl; auto | reflexivity] ].

(** X5: [_empty_cache] and [_synchronize] never ask XPU or MPS whether it
    is available before [hasattr] has found that backend's module: an
    availability question to one of them follows a [hasattr] test on it,
    and that test succeeded. *)
Theorem availability_asked_after_hasattr (self : Handler) (t : Torch) :
  hasattr_first t (fst (_empty_cache self t)) /\
  hasattr_first t (fst (_synchronize self t)).
Proof.
  unfold _synchronize, _empty_cache, hasattr_first.
  destruct (device_type_cases self t) as [Hraise | [dt Hres]].
  - rewrite !(device_type_raise_bind self t _ Hraise). simpl.
    split; intros [| ? ?] ? ? H; discriminate H.
  - rewrite !(device_type_bind self t dt Hres).
    dispatch_cases t dt; split; solve_hasattr_first.
Qed.

(** ** Further properties of the flash-attention probe *)

Lemma before_colon_index (s r : string) :
  colon_free s = true -> before_colon (s +:+ ":" +:+ r) = s.
Proof.
  induction s as [| c rest IH]; simpl; [done |].
  destruct (Ascii.eqb c ":"); simpl; [done |].
  intros H. by rewrite IH.
Qed.

Lemma target_device_override (self : Handler) (dev : Device) :
  truthy dev = true -> target_device self dev = before_colon (py_str dev).
Proof.
  intros Hdev. unfold target_device, py_or. by rewrite Hdev, Hdev.
Qed.

Lemma target_device_handler (self : Handler) :
  truthy (device self) = true ->
  target_device self DevNone = before_colon (py_str (device self)).
Proof.
  intros Hdev. unfold target_device, py_or.
  change (truthy DevNone) with false. cbv iota. by rewrite Hdev.
Qed.

(** The probe reads the handler and the override through the resolved tag
    only. *)
Lemma flash_attention_by_tag (self self' : Handler) (dev dev' : Device)
    (t : Torch) :
  target_device self dev = target_device self' dev' ->
  is_flash_attention_available self dev t
  = is_flash_attention_available self' dev' t.
Proof. intros H. unfold is_flash_attention_available. by rewrite H. Qed.

(** The whole run of the probe, by tag and state of the runtime. *)
Lemma flash_attention_run (self : Handler) (dev : Device) (t : Torch) :
  is_flash_attention_available self dev t
  = if cuda_or_auto (target_device self dev) then
      if cuda_is_available t
      then ([Call Cuda IsAvailable; ImportFlashAttn], probe_outcome t)
      else ([Call Cuda IsAvailable], Ok false)
    else ([], Ok false).
Proof.
  unfold is_flash_attention_available, cuda_or_auto, probe_outcome.
  destruct t as [cuda hx xpu hm mps mem maxmem imp].
  destruct (String.eqb_spec (target_device self dev) "auto") as [-> | Ha].
  - destruct cuda; [| reflexivity].
    destruct imp as [e |]; [destruct e |]; reflexivity.
  - destruct (String.eqb_spec (target_device self dev) "cuda") as [_ | _];
      [| reflexivity].
    destruct cuda; [| reflexivity].
    destruct imp as [e |]; [destruct e |]; reflexivity.
Qed.

(** X6: the probe asks the runtime as little as it can. For a tag other
    than ["cuda"] and ["auto"] it touches nothing; otherwise it asks CUDA
    once whether it is available, and it imports [flash_attn], once, only
    when CUDA is. It never touches XPU or MPS and never calls into CUDA
    beyond that question. *)
Theorem flash_attention_trace (self : Handler) (dev : Device) (t : Torch) :
  fst (is_flash_attention_available self dev t)
  = if cuda_or_auto (target_device self dev) then
      if cuda_is_available t
      then [Call Cuda IsAvailable; ImportFlashAttn]
      else [Call Cuda IsAvailable]
    else [].
Proof.
  rewrite flash_attention_run.
  destruct (cuda_or_auto _); [| reflexivity].
  by destruct (cuda_is_available t).
Qed.

(** X7: the probe answers [True] exactly when the resolved tag is
    ["cuda"] or ["auto"], CUDA is available and the import of [flash_attn]
    succeeds. *)
Theorem flash_attention_true_iff (self : Handler) (dev : Device) (t : Torch) :
  snd (is_flash_attention_available self dev t) = Ok true <->
  cuda_or_auto (target_device self dev) = true /\
  cuda_is_available t = true /\
  import_flash_attn t = None.
Proof.
  rewrite flash_attention_run. unfold probe_outcome.
  destruct (cuda_or_auto _), (cuda_is_available t); simpl;
    try (split; [discriminate | intros (? & ? & ?); discriminate]).
  destruct (import_flash_attn t) as [e |].
  - destruct (is_ImportError e);
      (split; [discriminate | intros (? & ? & ?); discriminate]).
  - split; [by intros _ | done].
Qed.

(** X8: the probe raises exactly when the resolved tag is ["cuda"] or
    ["auto"], CUDA is available and the import of [flash_attn] raises an
    exception that is not an [ImportError]; it then raises that exception.
    Nothing else makes it raise, an absent handler device included. *)
Theorem flash_attention_raises_iff (self : Handler) (dev : Device)
    (t : Torch) (e : exn) :
  snd (is_flash_attention_available self dev t) = Raise e <->
  cuda_or_auto (target_device self dev) = true /\
  cuda_is_available t = true /\
  import_flash_attn t = Some e /\
  is_ImportError e = false.
Proof.
  rewrite flash_attention_run. unfold probe_outcome.
  destruct (cuda_or_auto _), (cuda_is_available t); simpl;
    try (split; [discriminate | intros (? & ? & ? & ?); discriminate]).
  destruct (import_flash_attn t) as [e' |].
  - destruct (is_ImportError e') eqn:He'; split.
    + discriminate.
    + intros (_ & _ & [= ->] & He). congruence.
    + intros [= ->]. done.
    + intros (_ & _ & [= ->] & _). done.
  - split; [discriminate | intros (_ & _ & ? & _); discriminate].
Qed.

(** X9: a non-empty override decides alone: with it the probe answers the
    same on every handler, and it answers what a handler whose own device
    is that value answers without override. *)
Theorem flash_attention_override_precedence (self self' : Handler)
    (dev : Device) (t : Torch) :
  truthy dev = true ->
  is_flash_attention_available self dev t
    = is_flash_attention_available self' dev t /\
  is_flash_attention_available
    {| device := dev; config := config self;
       project_root := project_root self |} DevNone t
    = is_flash_attention_available self dev t.
Proof.
  intros Hdev. split; apply flash_attention_by_tag.
  - by rewrite !target_device_override.
  - rewrite target_device_handler by done.
    by rewrite target_device_override.
Qed.

Lemma flash_attention_override_precedence_witness :
  is_flash_attention_available
    (sample_handler (DevStr "cpu")) (DevStr "cuda") sample_torch
  = is_flash_attention_available
      (sample_handler (DevStr "mps")) (DevStr "cuda") sample_torch.
Proof.
  apply (flash_attention_override_precedence
           (sample_handler (DevStr "cpu")) (sample_handler (DevStr "mps"))
           (DevStr "cuda") sample_torch).
  reflexivity.
Defined.

(** X10: a device index does not change the probe's answer: for a
    non-empty tag [s] without colon, the override [s:r] resolves to [s]
    and is answered as the override [s], whatever follows the colon. *)
Theorem flash_attention_ignores_index (self : Handler) (s r : string)
    (t : Torch) :
  s <> "" ->
  colon_free s = true ->
  target_device self (DevStr (s +:+ ":" +:+ r)) = s /\
  is_flash_attention_available self (DevStr (s +:+ ":" +:+ r)) t
    = is_flash_attention_available self (DevStr s) t.
Proof.
  intros Hne Hfree.
  assert (target_device self (DevStr (s +:+ ":" +:+ r)) = s) as Htag.
  { rewrite target_device_override.
    - by apply before_colon_index.
    - destruct s; [done | reflexivity]. }
  split; [exact Htag |].
  apply flash_attention_by_tag. rewrite Htag.
  symmetry. by apply target_device_of_tag.
Qed.

Lemma flash_attention_ignores_index_witness :
  target_device (sample_handler (DevStr "cpu")) (DevStr "cuda:1") = "cuda".
Proof.
  apply (flash_attention_ignores_index
           (sample_handler (DevStr "cpu")) "cuda" "1" sample_torch).
  - discriminate.
  - reflexivity.
Defined.

(** X11: a device handle stands for the string of its type. With a
    non-empty type without colon, a handler whose device is the handle,
    with or without index, runs the four dispatcher operations and,
    without override, the flash-attention probe exactly as the handler
    whose device is that type as a string. *)
Theorem handle_behaves_as_type_string (ty : string) (idx : option nat)
    (cfg : option (gmap string PyVal)) (root : string) (t : Torch) :
  ty <> "" ->
  colon_free ty = true ->
  _empty_cache
    {| device := DevHandle ty idx; config := cfg; project_root := root |} t
  = _empty_cache
      {| device := DevStr ty; config := cfg; project_root := root |} t /\
  _synchronize
    {| device := DevHandle ty idx; config := cfg; project_root := root |} t
  = _synchronize
      {| device := DevStr ty; config := cfg; project_root := root |} t /\
  _memory_allocated
    {| device := DevHandle ty idx; config := cfg; project_root := root |} t
  = _memory_allocated
      {| device := DevStr ty; config := cfg; project_root := root |} t /\
  _max_memory_allocated
    {| device := DevHandle ty idx; config := cfg; project_root := root |} t
  = _max_memory_allocated
      {| device := DevStr ty; config := cfg; project_root := root |} t /\
  is_flash_attention_available
    {| device := DevHandle ty idx; config := cfg; project_root := root |}
    DevNone t
  = is_flash_attention_available
      {| device := DevStr ty; config := cfg; project_root := root |}
      DevNone t.
Proof.
  intros Hne Hfree.
  do 4 (split; [reflexivity |]).
  apply flash_attention_by_tag.
  rewrite !target_device_handler by (simpl; destruct ty; done).
  simpl device. simpl py_str.
  rewrite (before_colon_colon_free ty Hfree).
  destruct idx as [i |]; [by apply before_colon_index |].
  by apply before_colon_colon_free.
Qed.

Lemma handle_behaves_as_type_string_witness :
  _memory_allocated (sample_handler (DevHandle "cuda" (Some 1%nat)))
    sample_torch
  = _memory_allocated (sample_handler (DevStr "cuda")) sample_torch.
Proof.
  apply (handle_behaves_as_type_string
           "cuda" (Some 1%nat) None "/srv/ace" sample_torch).
  - discriminate.
  - reflexivity.
Defined.

(** ** Further properties of the checkpoint locator *)

Lemma models_directory_run (self : Handler) (fs : FileSystem)
    (items : list string) :
  fs (os_path_join (project_root self) "checkpoints") = Directory items ->
  get_available_acestep_v15_models self fs
  = Ok (py_sort
          (List.filter
             (is_model_entry fs
                (os_path_join (project_root self) "checkpoints"))
             items)).
Proof.
  intros Hdir. unfold get_available_acestep_v15_models.
  unfold os_path_exists, os_listdir. rewrite Hdir.
  by rewrite scan_models_filter.
Qed.

Lemma py_sort_permutation (l : list string) : Permutation (py_sort l) l.
Proof. apply merge_sort_Permutation. Qed.

Lemma py_sort_sorted (l : list string) : StronglySorted str_le (py_sort l).
Proof. apply StronglySorted_merge_sort; apply _. Qed.

Lemma py_sort_of_permutation (l1 l2 : list string) :
  Permutation l1 l2 -> py_sort l1 = py_sort l2.
Proof.
  intros Hperm.
  apply (StronglySorted_unique str_le); try apply py_sort_sorted.
  by rewrite !py_sort_permutation.
Qed.

Lemma filter_of_permutation (f : string -> bool) (l1 l2 : list string) :
  Permutation l1 l2 -> Permutation (List.filter f l1) (List.filter f l2).
Proof.
  induction 1 as [| x l1 l2 _ IH | x y l | l1 l2 l3 _ IH1 _ IH2]; simpl.
  - constructor.
  - destruct (f x); [by constructor | done].
  - destruct (f x), (f y); try done; by constructor.
  - by etransitivity.
Qed.

(** X12: over a checkpoint directory whose listing has no repeated name,
    [get_available_acestep_v15_models] returns a list without repeated
    name. *)
Theorem models_no_duplicates (self : Handler) (fs : FileSystem)
    (items : list string) :
  fs (os_path_join (project_root self) "checkpoints") = Directory items ->
  List.NoDup items ->
  exists models,
    get_available_acestep_v15_models self fs = Ok models /\
    List.NoDup models.
Proof.
  intros Hdir Hnodup. eexists. split; [by apply models_directory_run |].
  eapply Permutation_NoDup.
  - symmetry. apply py_sort_permutation.
  - by apply List.NoDup_filter.
Qed.

Lemma models_no_duplicates_witness :
  exists models,
    get_available_acestep_v15_models (sample_handler (DevStr "cuda")) sample_fs
      = Ok models /\
    List.NoDup models.
Proof.
  apply (models_no_duplicates (sample_handler (DevStr "cuda")) sample_fs
           ["vae"; "acestep-v15-turbo"; "acestep-v15-base";
            "acestep-v15-notes.txt"]).
  - vm_compute. reflexivity.
  - repeat constructor; simpl; intros H;
      repeat (destruct H as [H | H]; [discriminate H |]); exact H.
Defined.

(** X13: the result does not depend on the order in which [os.listdir]
    reports the entries: two filesystems whose checkpoint directories list
    the same names in different orders, and that agree on which of them
    are directories, give the same list of models. *)
Theorem models_independent_of_listing_order (self : Handler)
    (fs1 fs2 : FileSystem) (items1 items2 : list string) :
  fs1 (os_path_join (project_root self) "checkpoints") = Directory items1 ->
  fs2 (os_path_join (project_root self) "checkpoints") = Directory items2 ->
  Permutation items1 items2 ->
  (forall item,
      os_path_isdir fs1
        (os_path_join (os_path_join (project_root self) "checkpoints") item)
      = os_path_isdir fs2
          (os_path_join (os_path_join (project_root self) "checkpoints")
             item)) ->
  get_available_acestep_v15_models self fs1
  = get_available_acestep_v15_models self fs2.
Proof.
  intros Hdir1 Hdir2 Hperm Hsame.
  rewrite (models_directory_run self fs1 items1 Hdir1).
  rewrite (models_directory_run self fs2 items2 Hdir2).
  f_equal. apply py_sort_of_permutation.
  rewrite (List.filter_ext _
             (is_model_entry fs2
                (os_path_join (project_root self) "checkpoints"))).
  - by apply filter_of_permutation.
  - intros item. unfold is_model_entry. by rewrite Hsame.
Qed.

Lemma models_independent_of_listing_order_witness :
  get_available_acestep_v15_models (sample_handler (DevStr "cuda")) sample_fs
  = get_available_acestep_v15_models
      (sample_handler (DevStr "cuda")) sample_fs_reversed.
Proof.
  apply (models_independent_of_listing_order
           (sample_handler (DevStr "cuda")) sample_fs sample_fs_reversed
           ["vae"; "acestep-v15-turbo"; "acestep-v15-base";
            "acestep-v15-notes.txt"]
           ["acestep-v15-notes.txt"; "acestep-v15-base";
            "acestep-v15-turbo"; "vae"]).
  - vm_compute. reflexivity.
  - vm_compute. reflexivity.
  - apply (Permutation_rev
             ["vae"; "acestep-v15-turbo"; "acestep-v15-base";
              "acestep-v15-notes.txt"]).
  - intros item. unfold os_path_isdir, sample_fs_reversed.
    destruct (String.eqb_spec
                (os_path_join
                   (os_path_join
                      (project_root (sample_handler (DevStr "cuda")))
                      "checkpoints") item)
                "/srv/ace/checkpoints") as [-> | _]; reflexivity.
Defined.

(** X14: when the checkpoints path is a regular file, not a directory,
    [get_available_checkpoints] still returns it as the one checkpoint
    root, and [get_available_acestep_v15_models] raises
    [NotADirectoryError] from the listing instead of returning a list. *)
Theorem checkpoints_path_regular_file (self : Handler) (fs : FileSystem) :
  fs (os_path_join (project_root self) "checkpoints") = RegularFile ->
  get_available_checkpoints self fs
    = [os_path_join (project_root self) "checkpoints"] /\
  get_available_acestep_v15_models self fs = Raise NotADirectoryError.
Proof.
  intros Hfile.
  unfold get_available_checkpoints, get_available_acestep_v15_models,
    os_path_exists, os_listdir.
  by rewrite Hfile.
Qed.

Lemma checkpoints_path_regular_file_witness :
  get_available_checkpoints (sample_handler (DevStr "cuda")) sample_fs_file
    = ["/srv/ace/checkpoints"] /\
  get_available_acestep_v15_models
    (sample_handler (DevStr "cuda")) sample_fs_file
    = Raise NotADirectoryError.
Proof.
  apply (checkpoints_path_regular_file
           (sample_handler (DevStr "cuda")) sample_fs_file).
  vm_compute. reflexivity.
Defined.

(** X15: the two listings agree. Every name that
    [get_available_acestep_v15_models] returns starts with
    ["acestep-v15-"] and, joined to the one root that
    [get_available_checkpoints] returns, is a directory; and when
    [get_available_checkpoints] returns no root there is no model. *)
Theorem models_live_under_checkpoint_root (self : Handler) (fs : FileSystem)
    (models : list string) :
  get_available_acestep_v15_models self fs = Ok models ->
  (forall name,
      In name models ->
      exists root,
        get_available_checkpoints self fs = [root] /\
        os_path_isdir fs (os_path_join root name) = true /\
        startswith name "acestep-v15-" = true) /\
  (get_available_checkpoints self fs = [] -> models = []).
Proof.
  intros Hrun.
  destruct (fs (os_path_join (project_root self) "checkpoints"))
    as [| | items] eqn:Hnode.
  - (* no checkpoints path *)
    rewrite (models_of_absent self fs Hnode) in Hrun.
    injection Hrun as <-. split; [by intros name [] | done].
  - (* a regular file *)
    unfold get_available_acestep_v15_models, os_path_exists, os_listdir
      in Hrun.
    rewrite Hnode in Hrun. discriminate Hrun.
  - (* a directory *)
    rewrite (models_directory_run self fs items Hnode) in Hrun.
    injection Hrun as <-.
    unfold get_available_checkpoints, os_path_exists. rewrite Hnode.
    split; [| discriminate].
    intros name Hin. eexists. split; [reflexivity |].
    apply (Permutation_in _ (py_sort_permutation _)) in Hin.
    apply List.filter_In in Hin as [_ Hentry].
    unfold is_model_entry in Hentry.
    by apply andb_true_iff in Hentry.
Qed.

Lemma models_live_under_checkpoint_root_witness :
  exists root,
    get_available_checkpoints (sample_handler (DevStr "cuda")) sample_fs
      = [root] /\
    os_path_isdir sample_fs (os_path_join root "acestep-v15-base") = true /\
    startswith "acestep-v15-base" "acestep-v15-" = true.
Proof.
  apply (proj1 (models_live_under_checkpoint_root
                  (sample_handler (DevStr "cuda")) sample_fs
                  ["acestep-v15-base"; "acestep-v15-turbo"]
                  ltac:(vm_compute; reflexivity))).
  simpl. auto.
Defined.

(** X16: over a checkpoint directory,
    [get_available_acestep_v15_models] returns the empty list exactly when
    no entry is a directory whose name starts with ["acestep-v15-"]; an
    empty directory is one such case. *)
Theorem models_empty_iff (self : Handler) (fs : FileSystem)
    (items : list string) :
  fs (os_path_join (project_root self) "checkpoints") = Directory items ->
  get_available_acestep_v15_models self fs = Ok [] <->
  (forall item,
      In item items ->
      is_model_entry fs (os_path_join (project_root self) "checkpoints") item
      = false).
Proof.
  intros Hdir. rewrite (models_directory_run self fs items Hdir).
  split.
  - intros [= Hsorted] item Hin.
    destruct (is_model_entry _ _ item) eqn:Hentry; [| done].
    assert (In item
              (py_sort
                 (List.filter
                    (is_model_entry fs
                       (os_path_join (project_root self) "checkpoints"))
                    items))) as Hin'.
    { apply (Permutation_in _ (Permutation_sym (py_sort_permutation _))).
      apply List.filter_In. by split. }
    rewrite Hsorted in Hin'. destruct Hin'.
  - intros Hnone. f_equal.
    assert (List.filter
              (is_model_entry fs
                 (os_path_join (project_root self) "checkpoints")) items
            = []) as ->; [| reflexivity].
    clear Hdir. induction items as [| item rest IH]; simpl; [done |].
    rewrite (Hnone item) by (by left).
    apply IH. intros item' Hin'. apply Hnone. by right.
Qed.

Lemma models_empty_iff_witness :
  get_available_acestep_v15_models
    (sample_handler (DevStr "cuda")) sample_fs_no_model
  = Ok [].
Proof.
  apply (proj2 (models_empty_iff
                  (sample_handler (DevStr "cuda")) sample_fs_no_model
                  ["vae"; "acestep-v15-notes.txt"]
                  ltac:(vm_compute; reflexivity))).
  intros item [<- | [<- | []]]; vm_compute; reflexivity.
Defined.

(** ** A further property of the turbo-model flag *)

(** X17: [is_turbo_model] reads the configuration's [is_turbo] attribute
    and nothing else: setting or deleting any other attribute of the
    configuration, and changing the handler's device or project root,
    leaves its answer as it was. *)
Theorem is_turbo_model_reads_is_turbo_only (self self' : Handler)
    (cfg : gmap string PyVal) (name : string) (v : PyVal) :
  name <> "is_turbo" ->
  config self = Some cfg ->
  (config self' = Some (<[name := v]> cfg) \/
   config self' = Some (delete name cfg)) ->
  is_turbo_model self' = is_turbo_model self.
Proof.
  intros Hname Hcfg Hcfg'. unfold is_turbo_model, getattr.
  rewrite Hcfg.
  destruct Hcfg' as [-> | ->].
  - by rewrite lookup_insert_ne.
  - by rewrite lookup_delete_ne.
Qed.

Lemma is_turbo_model_reads_is_turbo_only_witness :
  is_turbo_model
    {| device := DevStr "cpu";
       config := Some (<["dtype" := PyStr "bf16"]>
                         {[ "is_turbo" := PyBool true ]});
       project_root := "/opt/ace" |}
  = is_turbo_model
      {| device := DevStr "cuda";
         config := Some {[ "is_turbo" := PyBool true ]};
         project_root := "/srv/ace" |}.
Proof.
  apply (is_turbo_model_reads_is_turbo_only
           {| device := DevStr "cuda";
              config := Some {[ "is_turbo" := PyBool true ]};
              project_root := "/srv/ace" |}
           {| device := DevStr "cpu";
              config := Some (<["dtype" := PyStr "bf16"]>
                                {[ "is_turbo" := PyBool true ]});
              project_root := "/opt/ace" |}
           {[ "is_turbo" := PyBool true ]} "dtype" (PyStr "bf16")).
  - discriminate.
  - reflexivity.
  - left. reflexivity.
Defined.
